(** * ES-Writer backend: the question-answering pipeline of [ask_ai.go]

    A shallow embedding of [backend/ask_ai.go] in its two variants (the
    profile-backed handler that talks to the generative-language API, and the
    variant that talks to the managed-model runtime with a fixed bio), and
    the properties of the fan-out that the specification states.

    What the Go runtime and the libraries do is modelled explicitly:
    - a [context] is its deadline; a network call that is given a context
      fails at once when the deadline has passed and is cut off when the
      deadline passes while it is in flight;
    - a goroutine is a [Task]: a computation started at an instant that ends
      with a value or an error, at an instant, having issued outbound calls;
    - the scheduler is an oracle that picks, among the goroutines still
      pending, the next one to run to its end.  *)

From Stdlib Require Import ZArith QArith Ascii String List Lia.
From stdpp Require Import base list strings pretty.

Open Scope string_scope.
Open Scope Z_scope.

(** ** Go values *)

(** A Go [(T, error)] pair: an error carries its message. *)
Inductive result (A : Type) : Type :=
| Ok (a : A)
| Err (msg : string).
Arguments Ok {A} a.
Arguments Err {A} msg.

Definition is_ok {A} (r : result A) : bool :=
  match r with Ok _ => true | Err _ => false end.

(** ** Time and deadlines ([context], [time]) *)

(** Instants and durations are counted in nanoseconds, as [time.Duration]. *)
Definition Second : Z := 1000000000.

(** A context is the deadline it carries, if any. *)
Record context := mkContext { deadline : option Z }.

Definition Background : context := mkContext None.
Definition TODO : context := mkContext None.

(** [context.WithTimeout(parent, d)] called at instant [now]. *)
Definition WithTimeout (parent : context) (now d : Z) : context :=
  mkContext (Some (match deadline parent with
                   | None => now + d
                   | Some p => Z.min p (now + d)
                   end)).

(** [ctx.Err() != nil] at instant [now]. *)
Definition expired (ctx : context) (now : Z) : bool :=
  match deadline ctx with
  | None => false
  | Some d => d <=? now
  end.

(** ** Tasks: computations in time that issue outbound calls *)

(** One outbound network call: where it goes and what it carries. *)
Record Call := mkCall { target : string; payload : string }.

Record Outcome (A : Type) := mkOutcome {
  value : result A;      (* what the computation returned *)
  clock : Z;             (* the instant it returned at *)
  trace : list Call      (* the outbound calls it issued *)
}.
Arguments mkOutcome {A} value clock trace.
Arguments value {A} o.
Arguments clock {A} o.
Arguments trace {A} o.

(** A computation started at an instant. *)
Definition Task (A : Type) : Type := Z -> Outcome A.

#[global] Instance Task_ret : MRet Task :=
  fun A a now => mkOutcome (Ok a) now [].

(** Sequencing with Go's [if err != nil { return "", err }]. *)
#[global] Instance Task_bind : MBind Task :=
  fun A B f m now =>
    let o := m now in
    match value o with
    | Err e => mkOutcome (Err e) (clock o) (trace o)
    | Ok a =>
        let o' := f a (clock o) in
        mkOutcome (value o') (clock o') (trace o ++ trace o')
    end.

Definition fail {A} (msg : string) : Task A :=
  fun now => mkOutcome (Err msg) now [].

(** A step that takes no time and talks to nobody. *)
Definition lift {A} (r : result A) : Task A :=
  fun now => mkOutcome r now [].

(** What the far end of a call does: how long it takes and what comes back. *)
Record Reply (P : Type) := mkReply { latency : Z; answer_of : result P }.
Arguments mkReply {P} latency answer_of.
Arguments latency {P} r.
Arguments answer_of {P} r.

(** A network call under a context, as [net/http] and the AWS SDK make it:
    nothing is sent when the context is already done; a call in flight when
    the deadline passes is abandoned at the deadline. *)
Definition roundTrip {P} (ctx : context) (c : Call) (r : Reply P) : Task P :=
  fun now =>
    if expired ctx now then mkOutcome (Err "context deadline exceeded") now []
    else
      match deadline ctx with
      | Some d =>
          if d <? now + latency r
          then mkOutcome (Err "context deadline exceeded") d [c]
          else mkOutcome (answer_of r) (now + latency r) [c]
      | None => mkOutcome (answer_of r) (now + latency r) [c]
      end.

(** ** The data of [ask_ai.go] *)

Record Part := mkPart { Text : string }.
Record Content := mkContent { Parts : list Part }.
Record AiRequest := mkAiRequest { Contents : list Content }.
Record HtmlRequest := mkHtmlRequest { Html : string }.

Record Candidate := mkCandidate { CandidateContent : Content }.
Record AiResponse := mkAiResponse { Candidates : list Candidate }.

Record UserProfile := mkUserProfile {
  Bio : string;
  Experience : string;
  Projects : string
}.

(** The element of the response array; the fields carry their JSON names. *)
Record Answer := mkAnswer { question : string; answer : string }.

(** The zero value that [make([]Answer, n)] fills the slice with. *)
Definition zeroAnswer : Answer := mkAnswer "" "".

(** An incoming request, as far as the handler reads it. *)
Record Request := mkRequest {
  Method : string;
  Authorization : string;
  Body : string
}.

Definition MethodOptions : string := "OPTIONS".
Definition StatusOK : Z := 200.
Definition StatusBadRequest : Z := 400.
Definition StatusUnauthorized : Z := 401.
Definition StatusInternalServerError : Z := 500.

(** The managed-model runtime's request and response bodies. *)
Record ClaudeRequest := mkClaudeRequest {
  Prompt : string;
  MaxTokensToSample : Z;
  Temperature : Q;
  StopSequences : list string
}.
Record ClaudeResponse := mkClaudeResponse { Completion : string }.

Record AwsConfig := mkAwsConfig {
  Region : string;
  AccessKeyID : string;
  SecretAccessKey : string;
  SessionToken : string
}.

Record InvokeModelInput := mkInvokeModelInput {
  ModelId : string;
  ContentType : string;
  InputBody : string
}.
Record InvokeModelOutput := mkInvokeModelOutput { OutputBody : string }.

(** What a provider sends back over HTTP. *)
Record HttpResponse := mkHttpResponse {
  StatusCode : Z;
  RespBody : result string    (* [io.ReadAll(resp.Body)] *)
}.


(** A request about to be sent, as [http.NewRequestWithContext] builds it. *)
Record OutRequest := mkOutRequest {
  ReqCtx : context;
  ReqMethod : string;
  URL : string;
  ReqBody : string;
  ReqHeader : list (string * string)
}.

Definition LF : string := String (Ascii.ascii_of_nat 10) "".

(** [fmt.Errorf(prefix + ": %w", err)] around a fallible step. *)
Definition wrapErr {A} (prefix : string) (m : Task A) : Task A :=
  fun now =>
    let o := m now in
    match value o with
    | Err e => mkOutcome (Err (prefix +:+ ": " +:+ e)) (clock o) (trace o)
    | Ok a => o
    end.

(** ** What the handler writes, and what a run of it did *)

Inductive ResponseBody :=
| NoBody
| ErrorText (msg : string)          (* [http.Error] *)
| JSON (answers : list Answer).     (* [json.NewEncoder(w).Encode(answers)] *)

Record Served := mkServed {
  Header : list (string * string);
  Status : Z;
  Payload : ResponseBody;
  Calls : list Call;       (* every outbound call made while serving *)
  ReturnedAt : Z           (* the instant the handler returned *)
}.

Definition corsHeader : list (string * string) :=
  [("Access-Control-Allow-Origin", "*");
   ("Access-Control-Allow-Methods", "POST, OPTIONS");
   ("Access-Control-Allow-Headers", "Content-Type")].

(** [http.Error(w, msg, code)] followed by [return]. *)
Definition http_Error (h : list (string * string)) (msg : string) (code now : Z)
  : Served :=
  mkServed (h ++ [("Content-Type", "text/plain; charset=utf-8");
                  ("X-Content-Type-Options", "nosniff")])
           code (ErrorText msg) [] now.

(** ** Collaborators

    Code of the repository outside [ask_ai.go] (token handling, HTML
    cleaning and question extraction), the database, the process
    environment and the library codecs are taken as they come. *)
Class Collaborators := {
  getValueFromToken : Request -> string -> result string;
  (* [db.QueryRow("SELECT bio, experience, projects ...", id).Scan(...)]:
     what was scanned, and the error if any *)
  QueryRow_users : string -> UserProfile * option string;
  cleanHTMLContent : string -> string;
  extractQuestions : string -> list string;
  apiKey : string;
  Getenv : string -> string;
  (* [encoding/json] *)
  Decode_HtmlRequest : string -> result HtmlRequest;
  Marshal_AiRequest : AiRequest -> result string;
  Unmarshal_AiResponse : string -> result AiResponse;
  Marshal_ClaudeRequest : ClaudeRequest -> result string;
  Unmarshal_ClaudeResponse : string -> result ClaudeResponse;
  (* [net/url]: does the string parse as a URL *)
  url_parses : string -> bool;
  (* [config.LoadDefaultConfig(ctx, WithRegion(..), WithCredentialsProvider(..))] *)
  LoadDefaultConfig : context -> string -> string -> string -> string ->
                      result AwsConfig
}.

(** ** The fan-out: one goroutine per question, one slot per goroutine

    The goroutines of one request share nothing but the [answers] slice, and
    each of them touches it once at most, at its own index, after its call
    has come back.  An interleaving of them is therefore the order in which
    they come to their end, and each is run to its end in one step.  All of
    them start at [startTime]; [wg.Wait()] returns at the latest of their
    ends.  Go panics on an assignment out of range where stdpp's insert does
    nothing; the loop hands out indices of [questions] only, and the slice
    has the length of [questions]. *)

(** The scheduler: with [left] goroutines still to finish, the pending one
    at position [choose left] (modulo their number) runs to its end next. *)
Fixpoint interleave {T} (left : nat) (choose : nat -> nat) (pending : list T)
  : list T :=
  match left with
  | O => []
  | S left' =>
      let k := (choose left' mod length pending)%nat in
      match pending !! k with
      | Some t => t :: interleave left' choose (delete k pending)
      | None => []
      end
  end.

Record FanOut := mkFanOut {
  slots : list Answer;     (* the [answers] slice *)
  issued : list Call;      (* outbound calls so far *)
  finished : Z;            (* the latest instant a goroutine ended at *)
  writes : list nat        (* the slot indices assigned to, in order *)
}.

Section FanOut.
(** [generatePromptWithBio] at the request's profile or bio. *)
Variable compose : string -> string.
(** [sendToAi] as goroutine [i] finds the network. *)
Variable send : nat -> context -> string -> Task string.
Variable ctx : context.
Variable startTime : Z.

(** The body of [go func(i int, q string) { ... }(i, question)]. *)
Definition goroutine (i : nat) (q : string) (s : FanOut) : FanOut :=
  let prompt := compose q in
  let o := send i ctx prompt startTime in
  match value o with
  | Err _ =>
      mkFanOut (slots s) (issued s ++ trace o)
               (Z.max (finished s) (clock o)) (writes s)
  | Ok a =>
      mkFanOut (<[i := mkAnswer q a]> (slots s)) (issued s ++ trace o)
               (Z.max (finished s) (clock o)) (writes s ++ [i])
  end.

(** What goroutine [i] gets back from [sendToAi] for question [q], and
    the instant it gets it at. *)
Definition completion (i : nat) (q : string) : result string :=
  value (send i ctx (compose q) startTime).
Definition endsAt (i : nat) (q : string) : Z :=
  clock (send i ctx (compose q) startTime).

(** [for i, question := range questions { wg.Add(1); go ... }] *)
Definition spawned (questions : list string) : list (nat * string) :=
  imap (fun i q => (i, q)) questions.

Definition runAll (order : list (nat * string)) (s : FanOut) : FanOut :=
  foldl (fun s t => goroutine t.1 t.2 s) s order.

(** From [answers := make([]Answer, len(questions))] to the return of
    [wg.Wait()]. *)
Definition fanOut (choose : nat -> nat) (questions : list string) : FanOut :=
  let answers := replicate (length questions) zeroAnswer in
  runAll (interleave (length questions) choose (spawned questions))
         (mkFanOut answers [] startTime []).
End FanOut.

(** ** The profile-backed variant (generative-language API) *)
Module Gemini.
Section WithCollaborators.
Context `{Collaborators}.

Definition getUserProfile (userID : string) : UserProfile * option string :=
  let (profile, err) := QueryRow_users userID in
  match err with
  | Some e => (profile, Some ("プロフィールの取得に失敗しました: " +:+ e))
  | None => (profile, None)
  end.

Definition NewRequestWithContext (ctx : context) (method url body : string)
  : result OutRequest :=
  if url_parses url then Ok (mkOutRequest ctx method url body [])
  else Err "parse: invalid URL".

Definition setHeader (k v : string) (req : OutRequest) : OutRequest :=
  mkOutRequest (ReqCtx req) (ReqMethod req) (URL req) (ReqBody req)
               (ReqHeader req ++ [(k, v)]).

(** [client.Do(req)]: the round trip runs under the request's context. *)
Definition client_Do (net : Call -> Reply HttpResponse) (req : OutRequest)
  : Task HttpResponse :=
  let c := mkCall (URL req) (ReqBody req) in
  roundTrip (ReqCtx req) c (net c).

Definition sendToAi (net : Call -> Reply HttpResponse) (ctx : context)
  (question : string) : Task string :=
  let url := "https://generativelanguage.googleapis.com/v1/models/gemini-1.5-flash:generateContent?key=" +:+ apiKey in
  reqBody ← lift (Marshal_AiRequest
                    (mkAiRequest [mkContent [mkPart question]]));
  req ← lift (NewRequestWithContext ctx "POST" url reqBody);
  let req := setHeader "Content-Type" "application/json" req in
  resp ← client_Do net req;
  body ← lift (RespBody resp);
  if negb (StatusCode resp =? StatusOK)
  then fail ("error: request " +:+ pretty (StatusCode resp) +:+ ": " +:+ body)
  else
    geminiResp ← lift (Unmarshal_AiResponse body);
    match Candidates geminiResp with
    | c :: _ =>
        match Parts (CandidateContent c) with
        | p :: _ => mret (Text p)
        | [] => fail "no answer found"
        end
    | [] => fail "no answer found"
    end.

Definition generatePromptWithBio (profile : UserProfile) (question : string)
  : string :=
  let combinedBio :=
    Bio profile +:+ "です。今までの経験は" +:+ Experience profile
      +:+ "です。これまでに作ってきた作品は" +:+ Projects profile in
  "あなたの経歴は" +:+ combinedBio
    +:+ "です。以下の質問に答えてください。簡潔かつ具体的に記述し、#や*,-などは使用せずに平文で解答部分のみを出力してください。"
    +:+ LF +:+ question.

(** The handler, entered at instant [now]; [net i] is the network as
    goroutine [i] finds it and [choose] the scheduler.  Only network calls
    take time. *)
Definition processQuestionsWithAI (net : nat -> Call -> Reply HttpResponse)
  (choose : nat -> nat) (now : Z) (r : Request) : Served :=
  let h := corsHeader in
  if String.eqb (Method r) MethodOptions
  then mkServed h StatusOK NoBody [] now
  else
    match getValueFromToken r "sub" with
    | Err err =>
        http_Error h ("トークンからユーザーIDの取得に失敗しました: " +:+ err)
                   StatusUnauthorized now
    | Ok userID =>
        match getUserProfile userID with
        | (_, Some err) =>
            http_Error h ("ユーザープロフィールの取得に失敗しました: " +:+ err)
                       StatusInternalServerError now
        | (profile, None) =>
            match Decode_HtmlRequest (Body r) with
            | Err _ => http_Error h "Bad request" StatusBadRequest now
            | Ok req =>
                let cleanHtml := cleanHTMLContent (Html req) in
                let questions := extractQuestions cleanHtml in
                if (length questions =? 0)%nat
                then http_Error h "No questions found" StatusBadRequest now
                else
                  let ctx := WithTimeout Background now (30 * Second) in
                  let startTime := now in
                  let s := fanOut (generatePromptWithBio profile)
                                  (fun i => sendToAi (net i))
                                  ctx startTime choose questions in
                  (* the first write to [w] sends status 200 *)
                  mkServed (h ++ [("Content-Type", "application/json")])
                           StatusOK (JSON (slots s)) (issued s) (finished s)
            end
        end
    end.
(** The guards a request passes before the goroutines are started: not a
    preflight, a resolved identity, a profile, a decoded body and at least
    one question. *)
Definition reachesDispatch (r : Request) (profile : UserProfile)
  (questions : list string) : Prop :=
  Method r ≠ MethodOptions /\
  exists userID req,
    getValueFromToken r "sub" = Ok userID /\
    getUserProfile userID = (profile, None) /\
    Decode_HtmlRequest (Body r) = Ok req /\
    extractQuestions (cleanHTMLContent (Html req)) = questions /\
    questions ≠ [].
End WithCollaborators.
End Gemini.

(** ** The fixed-bio variant (managed-model runtime) *)
Module Bedrock.
Section WithCollaborators.
Context `{Collaborators}.

(** [client.InvokeModel(ctx, input)]: the call runs under the context it
    is given. *)
Definition InvokeModel (net : Call -> Reply InvokeModelOutput)
  (cfg : AwsConfig) (ctx : context) (input : InvokeModelInput)
  : Task InvokeModelOutput :=
  let c := mkCall (Region cfg +:+ "/" +:+ ModelId input) (InputBody input) in
  roundTrip ctx c (net c).

Definition sendToAi (net : Call -> Reply InvokeModelOutput) (ctx : context)
  (question : string) : Task string :=
  let region := "us-west-2" in
  cfg ← wrapErr "failed to load AWS config"
          (lift (LoadDefaultConfig ctx region
                   (Getenv "AWS_ACCESS_KEY_ID")
                   (Getenv "AWS_SECRET_ACCESS_KEY")
                   (Getenv "AWS_SESSION_TOKEN")));
  let modelId := "anthropic.claude-v2" in
  let enclosedPrompt := "Human: " +:+ question +:+ LF +:+ LF +:+ "Assistant:" in
  reqBody ← wrapErr "failed to marshal request body"
              (lift (Marshal_ClaudeRequest
                       (mkClaudeRequest enclosedPrompt 1000 (2 # 10)
                                        ["以上です。"])));
  output ← wrapErr "failed to invoke model"
             (InvokeModel net cfg TODO
                (mkInvokeModelInput modelId "application/json" reqBody));
  response ← wrapErr "failed to unmarshal response"
               (lift (Unmarshal_ClaudeResponse (OutputBody output)));
  if String.eqb (Completion response) ""
  then fail "no answer found"
  else mret (Completion response).

Definition generatePromptWithBio (bio question : string) : string :=
  "あなたの経歴は" +:+ bio
    +:+ "です。以下の質問に答えてください。簡潔かつ具体的に記述し、#や*,-などは使用せずに平文で解答部分のみを出力してください。"
    +:+ LF +:+ question.

Definition bio : string :=
  "大学一年生の頃に海外で英語を一年学び、その後、大学でプログラミングの勉強をし、今は個人開発などをしている。webアプリケーションも作成した。(https://github.com/yamamoto99/es-writer)将来的にはエンジニアとしてさまざまな開発に携わりたい。普段は42Tokyoに通っており、CやGoを学んでいる。".

Definition processQuestionsWithAI
  (net : nat -> Call -> Reply InvokeModelOutput)
  (choose : nat -> nat) (now : Z) (r : Request) : Served :=
  let h := corsHeader in
  if String.eqb (Method r) MethodOptions
  then mkServed h StatusOK NoBody [] now
  else
    match Decode_HtmlRequest (Body r) with
    | Err _ => http_Error h "Bad request" StatusBadRequest now
    | Ok req =>
        let cleanHtml := cleanHTMLContent (Html req) in
        let questions := extractQuestions cleanHtml in
        if (length questions =? 0)%nat
        then http_Error h "No questions found" StatusBadRequest now
        else
          let ctx := WithTimeout Background now (30 * Second) in
          let startTime := now in
          let s := fanOut (generatePromptWithBio bio)
                          (fun i => sendToAi (net i))
                          ctx startTime choose questions in
          mkServed (h ++ [("Content-Type", "application/json")])
                   StatusOK (JSON (slots s)) (issued s) (finished s)
    end.
Definition reachesDispatch (r : Request) (questions : list string) : Prop :=
  Method r ≠ MethodOptions /\
  exists req,
    Decode_HtmlRequest (Body r) = Ok req /\
    extractQuestions (cleanHTMLContent (Html req)) = questions /\
    questions ≠ [].
End WithCollaborators.
End Bedrock.

(** ** Test doubles

    A token resolver that accepts one bearer credential, a profile store
    with one user, an extractor that knows two documents, codecs that wrap
    and unwrap without quoting, and providers that answer, refuse or stall. *)
Module Stub.
Definition profile : UserProfile :=
  mkUserProfile "a student" "a year abroad" "a web application".

Definition noProfile : UserProfile := mkUserProfile "" "" "".

Definition threeQuestions : list string :=
  ["Name?"; "Why this company?"; "Strengths?"].

(** The body [html=<markup>] stands for the JSON object with that markup. *)
Definition Decode (body : string) : result HtmlRequest :=
  match body with
  | String "h"%char (String "t"%char (String "m"%char (String "l"%char
      (String "="%char markup)))) =>
      Ok (mkHtmlRequest markup)
  | _ => Err "invalid character looking for beginning of value"
  end.

Definition collaborators : Collaborators := {|
  getValueFromToken r claim :=
    if String.eqb (Authorization r) "Bearer good" then Ok "user-1"
    else if String.eqb (Authorization r) "Bearer stranger" then Ok "user-2"
    else Err "token is malformed";
  QueryRow_users id :=
    if String.eqb id "user-1" then (profile, None)
    else (noProfile, Some "sql: no rows in result set");
  cleanHTMLContent html := html;
  extractQuestions html :=
    if String.eqb html "<form three>" then threeQuestions
    else if String.eqb html "<form one>" then ["Name?"]
    else [];
  apiKey := "KEY";
  Getenv name := "";
  Decode_HtmlRequest := Decode;
  Marshal_AiRequest req :=
    Ok (match Contents req with
        | mkContent (mkPart t :: _) :: _ => t
        | _ => ""
        end);
  Unmarshal_AiResponse body :=
    Ok (mkAiResponse [mkCandidate (mkContent [mkPart body])]);
  Marshal_ClaudeRequest req := Ok (Prompt req);
  Unmarshal_ClaudeResponse body := Ok (mkClaudeResponse body);
  url_parses url := true;
  LoadDefaultConfig ctx region key secret token :=
    Ok (mkAwsConfig region key secret token)
|}.

Definition goodRequest (markup : string) : Request :=
  mkRequest "POST" "Bearer good" ("html=" +:+ markup).

Definition anonymousRequest (markup : string) : Request :=
  mkRequest "POST" "" ("html=" +:+ markup).

(** Providers: one that answers [text] after [d], one that refuses the
    connection, for either variant. *)
Definition answering (d : Z) (text : string) : Call -> Reply HttpResponse :=
  fun _ => mkReply d (Ok (mkHttpResponse StatusOK (Ok text))).
Definition refusing : Call -> Reply HttpResponse :=
  fun _ => mkReply 0 (Err "dial tcp: connection refused").
Definition completing (d : Z) (text : string) : Call -> Reply InvokeModelOutput :=
  fun _ => mkReply d (Ok (mkInvokeModelOutput text)).

(** Goroutine 1 finds the provider down; the others get [OK] in a second. *)
Definition secondDown (i : nat) : Call -> Reply HttpResponse :=
  if (i =? 1)%nat then refusing else answering Second "OK".

(** Two schedulers: spawn order, and its reverse. *)
Definition inOrder : nat -> nat := fun _ => 0%nat.
Definition shuffled : nat -> nat := fun left => left.
End Stub.

(** * Properties *)

(** ** The scheduler runs every pending goroutine exactly once *)

Lemma interleave_Permutation {T} (choose : nat -> nat) (l : list T) :
  interleave (length l) choose l ≡ₚ l.
Proof.
  remember (length l) as n eqn:Hn. revert l Hn.
  induction n as [|n IH]; intros l Hn.
  - destruct l; [done | discriminate].
  - simpl.
    assert (Hk : (choose n mod length l < length l)%nat)
      by (apply Nat.mod_upper_bound; lia).
    destruct (lookup_lt_is_Some_2 l _ Hk) as [t Ht]. rewrite Ht.
    symmetry. etrans; [apply delete_Permutation, Ht|].
    constructor. symmetry. apply IH.
    rewrite length_delete by eauto. lia.
Qed.

Lemma spawned_lookup (questions : list string) (i : nat) :
  spawned questions !! i = (fun q => (i, q)) <$> questions !! i.
Proof. apply list_lookup_imap. Qed.

Lemma spawned_indices (questions : list string) :
  (spawned questions).*1 = seq 0 (length questions).
Proof.
  unfold spawned. rewrite fmap_imap.
  rewrite (imap_ext _ (fun i _ => i)) by done.
  rewrite (imap_seq_0 questions (fun i => i)). apply list_fmap_id.
Qed.

Lemma spawned_elem_of (questions : list string) (i : nat) (q : string) :
  (i, q) ∈ spawned questions ↔ questions !! i = Some q.
Proof.
  rewrite list_elem_of_lookup. split.
  - intros [j Hj]. rewrite spawned_lookup in Hj.
    destruct (questions !! j) eqn:E; simplify_eq/=. done.
  - intros Hq. exists i. by rewrite spawned_lookup, Hq.
Qed.

(** Every index handed out is in range of the slice. *)
Lemma spawned_in_range (questions : list string) (i : nat) (q : string) :
  (i, q) ∈ spawned questions -> (i < length questions)%nat.
Proof. rewrite spawned_elem_of. apply lookup_lt_Some. Qed.

(** No two goroutines are handed the same index. *)
Lemma spawned_NoDup (questions : list string) :
  NoDup (spawned questions).*1.
Proof. rewrite spawned_indices. apply NoDup_seq. Qed.

Lemma schedule_NoDup (choose : nat -> nat) (questions : list string) :
  NoDup (interleave (length questions) choose (spawned questions)).*1.
Proof.
  rewrite <- (length_imap (fun i q => (i, q)) questions).
  fold (spawned questions).
  rewrite interleave_Permutation. apply spawned_NoDup.
Qed.

Lemma schedule_elem_of (choose : nat -> nat) (questions : list string) i q :
  (i, q) ∈ interleave (length questions) choose (spawned questions)
  ↔ questions !! i = Some q.
Proof.
  rewrite <- (length_imap (fun i q => (i, q)) questions).
  fold (spawned questions).
  rewrite interleave_Permutation. apply spawned_elem_of.
Qed.

(** ** The slots after the goroutines have run *)

Section FanOutFacts.
Variable compose : string -> string.
Variable send : nat -> context -> string -> Task string.
Variable ctx : context.
Variable startTime : Z.

#[local] Abbreviation goroutine := (goroutine compose send ctx startTime).
#[local] Abbreviation runAll := (runAll compose send ctx startTime).
#[local] Abbreviation fanOut := (fanOut compose send ctx startTime).
#[local] Abbreviation completion := (completion compose send ctx startTime).
#[local] Abbreviation endsAt := (endsAt compose send ctx startTime).

Lemma goroutine_length i q s :
  length (slots (goroutine i q s)) = length (slots s).
Proof.
  unfold goroutine. destruct (value _); simpl; [apply length_insert | done].
Qed.

Lemma goroutine_other i q s j :
  i ≠ j -> slots (goroutine i q s) !! j = slots s !! j.
Proof.
  intros Hij. unfold goroutine.
  destruct (value _); simpl; [by apply list_lookup_insert_ne | done].
Qed.

Lemma goroutine_own i q s :
  (i < length (slots s))%nat ->
  slots (goroutine i q s) !! i =
    match completion i q with
    | Ok a => Some (mkAnswer q a)
    | Err _ => slots s !! i
    end.
Proof.
  intros Hi. unfold goroutine, completion.
  destruct (value _); simpl; [by apply list_lookup_insert_eq | done].
Qed.

Lemma runAll_cons t order s :
  runAll (t :: order) s = runAll order (goroutine t.1 t.2 s).
Proof. reflexivity. Qed.

Lemma runAll_length order s :
  length (slots (runAll order s)) = length (slots s).
Proof.
  revert s. induction order as [|t order IH]; intros s; [done|].
  rewrite runAll_cons, IH. apply goroutine_length.
Qed.

(** A slot no goroutine of the schedule owns keeps its value. *)
Lemma runAll_untouched order s j :
  j ∉ order.*1 -> slots (runAll order s) !! j = slots s !! j.
Proof.
  revert s. induction order as [|[i q] order IH]; intros s Hj; [done|].
  rewrite fmap_cons, not_elem_of_cons in Hj. destruct Hj as [Hne Hj].
  rewrite runAll_cons, IH by done. apply goroutine_other. simpl in *. congruence.
Qed.

(** The slot of a goroutine holds what that goroutine alone decided. *)
Lemma runAll_slot order s j q :
  NoDup order.*1 -> (j, q) ∈ order -> (j < length (slots s))%nat ->
  slots (runAll order s) !! j =
    match completion j q with
    | Ok a => Some (mkAnswer q a)
    | Err _ => slots s !! j
    end.
Proof.
  revert s. induction order as [|[i q'] order IH]; intros s Hnd Hin Hj.
  - by apply elem_of_nil in Hin.
  - rewrite fmap_cons in Hnd. apply NoDup_cons in Hnd as [Hfresh Hnd].
    rewrite runAll_cons. apply elem_of_cons in Hin as [Heq | Hin].
    + injection Heq as <- <-. simpl in *.
      rewrite runAll_untouched by done. by apply goroutine_own.
    + assert (i ≠ j) as Hne.
      { intros ->. apply Hfresh. simpl.
        apply (list_elem_of_fmap_2 fst) in Hin. exact Hin. }
      rewrite IH; [| done | done | by rewrite goroutine_length].
      simpl. rewrite goroutine_other by done. done.
Qed.

Lemma fanOut_length choose questions :
  length (slots (fanOut choose questions)) = length questions.
Proof.
  unfold fanOut. rewrite runAll_length. simpl. apply length_replicate.
Qed.

Lemma fanOut_slot choose questions i q :
  questions !! i = Some q ->
  slots (fanOut choose questions) !! i =
    Some match completion i q with
         | Ok a => mkAnswer q a
         | Err _ => zeroAnswer
         end.
Proof.
  intros Hq. pose proof (lookup_lt_Some _ _ _ Hq) as Hi.
  unfold fanOut.
  rewrite (runAll_slot _ _ i q).
  - simpl. rewrite lookup_replicate_2 by done. by destruct (completion i q).
  - apply schedule_NoDup.
  - by apply schedule_elem_of.
  - simpl. by rewrite length_replicate.
Qed.
(** [wg.Wait()] returns no earlier than any goroutine has ended. *)
Lemma runAll_finished_ge order s :
  finished s <= finished (runAll order s) /\
  forall i q, (i, q) ∈ order -> endsAt i q <= finished (runAll order s).
Proof.
  revert s. induction order as [|[i q] order IH]; intros s.
  - split; [simpl; lia|]. intros i q Hin. by apply elem_of_nil in Hin.
  - rewrite runAll_cons. destruct (IH (goroutine i q s)) as [Hs Hall].
    assert (finished (goroutine i q s) = Z.max (finished s) (endsAt i q)) as Hg.
    { unfold goroutine, endsAt. by destruct (value _). }
    simpl in *. split; [lia|].
    intros j q' Hin. apply elem_of_cons in Hin as [Heq | Hin]; [|by apply Hall].
    injection Heq as -> ->. lia.
Qed.

Lemma runAll_finished_le order s (B : Z) :
  finished s <= B ->
  (forall i q, (i, q) ∈ order -> endsAt i q <= B) ->
  finished (runAll order s) <= B.
Proof.
  revert s. induction order as [|[i q] order IH]; intros s Hs Hall; [done|].
  rewrite runAll_cons. apply IH.
  - assert (endsAt i q <= B) by (apply Hall; left).
    unfold goroutine, endsAt in *. destruct (value _); simpl; lia.
  - intros j q' Hin. apply Hall. by right.
Qed.

(** The assignments made, in order: one per goroutine whose call came back
    without an error, to that goroutine's own index. *)
Lemma runAll_writes order s :
  writes (runAll order s) =
    (writes s ++ (filter (fun t => is_ok (completion t.1 t.2)) order).*1)%list.
Proof.
  revert s. induction order as [|[i q] order IH]; intros s.
  - simpl. by rewrite app_nil_r.
  - rewrite runAll_cons, IH. unfold goroutine, completion. simpl.
    destruct (value (send i ctx (compose q) startTime)) eqn:E.
    + rewrite filter_cons_True by (simpl; unfold completion; by rewrite E).
      simpl. by rewrite <- app_assoc.
    + rewrite filter_cons_False; [done|].
      simpl. unfold completion. rewrite E. simpl. tauto.
Qed.

Lemma fanOut_writes_NoDup choose questions :
  NoDup (writes (fanOut choose questions)).
Proof.
  unfold fanOut. rewrite runAll_writes. simpl.
  eapply sublist_NoDup; [apply schedule_NoDup|].
  apply fmap_sublist, sublist_filter.
Qed.

Lemma fanOut_writes_owner choose questions i :
  i ∈ writes (fanOut choose questions) <->
  exists q a, questions !! i = Some q /\ completion i q = Ok a.
Proof.
  unfold fanOut. rewrite runAll_writes. simpl.
  rewrite list_elem_of_fmap. split.
  - intros [[j q] [-> Hin]]. apply list_elem_of_filter in Hin as [Hok Hin].
    apply schedule_elem_of in Hin. simpl in *.
    destruct (completion j q) as [a|] eqn:E; [eauto | done].
  - intros (q & a & Hq & Ha). exists (i, q). split; [done|].
    apply list_elem_of_filter. split; [simpl; by rewrite Ha|].
    by apply schedule_elem_of.
Qed.

Lemma fanOut_finished_ge choose questions i q :
  questions !! i = Some q ->
  endsAt i q <= finished (fanOut choose questions).
Proof.
  intros Hq. unfold fanOut. apply runAll_finished_ge.
  by apply schedule_elem_of.
Qed.

Lemma fanOut_finished_le choose questions (B : Z) :
  startTime <= B ->
  (forall i q, questions !! i = Some q -> endsAt i q <= B) ->
  finished (fanOut choose questions) <= B.
Proof.
  intros Hs Hall. unfold fanOut. apply runAll_finished_le; [done|].
  intros i q Hin. apply Hall. by apply schedule_elem_of in Hin.
Qed.
(** [wg.Wait()] returns at the instant the last goroutine ends. *)
Lemma runAll_finished_attained order s :
  finished (runAll order s) = finished s \/
  exists i q, (i, q) ∈ order /\ finished (runAll order s) = endsAt i q.
Proof.
  revert s. induction order as [|[i q] order IH]; intros s; [by left|].
  rewrite runAll_cons.
  destruct (IH (goroutine i q s)) as [Hs | (j & q' & Hin & Hj)].
  - assert (finished (goroutine i q s) = Z.max (finished s) (endsAt i q)) as Hg.
    { unfold goroutine, endsAt. by destruct (value _). }
    simpl in *. rewrite Hs, Hg.
    destruct (Z.max_spec (finished s) (endsAt i q)) as [[_ ->] | [_ ->]].
    + right. exists i, q. split; [left | done].
    + by left.
  - right. exists j, q'. split; [by right | done].
Qed.

Lemma fanOut_finished_attained choose questions :
  finished (fanOut choose questions) = startTime \/
  exists i q, questions !! i = Some q /\
              finished (fanOut choose questions) = endsAt i q.
Proof.
  unfold fanOut.
  destruct (runAll_finished_attained
              (interleave (length questions) choose (spawned questions))
              (mkFanOut (replicate (length questions) zeroAnswer) [] startTime []))
    as [Hs | (i & q & Hin & Hi)]; [by left|].
  right. exists i, q. split; [by apply schedule_elem_of in Hin | done].
Qed.
End FanOutFacts.

(** ** The completion client of the profile-backed variant *)

Section GeminiClient.
Context `{Collaborators}.
Variable net : Call -> Reply HttpResponse.

(** With a context that is already done, nothing is sent and the call fails
    on the spot. *)
Lemma gemini_sendToAi_expired ctx q now :
  expired ctx now = true ->
  is_ok (value (Gemini.sendToAi net ctx q now)) = false /\
  trace (Gemini.sendToAi net ctx q now) = [] /\
  clock (Gemini.sendToAi net ctx q now) = now.
Proof.
  intros He.
  unfold Gemini.sendToAi, Gemini.client_Do, Gemini.NewRequestWithContext,
    mbind, Task_bind, lift, roundTrip; simpl.
  destruct (Marshal_AiRequest _); simpl; [|done].
  destruct (url_parses _); simpl; [|done].
  rewrite He. simpl. done.
Qed.

(** The call is over by the deadline of its context. *)
Lemma gemini_sendToAi_by_deadline ctx q now d :
  deadline ctx = Some d -> now <= d ->
  clock (Gemini.sendToAi net ctx q now) <= d.
Proof.
  intros Hd Hnow.
  unfold Gemini.sendToAi, Gemini.client_Do, Gemini.NewRequestWithContext,
    mbind, Task_bind, lift, roundTrip, fail, mret, Task_ret; simpl.
  destruct (Marshal_AiRequest _); simpl; [|done].
  destruct (url_parses _); simpl; [|done].
  unfold expired. rewrite Hd.
  destruct (d <=? now) eqn:E1; simpl; [done|].
  destruct (d <? now + latency _) eqn:E2; simpl; [done|].
  apply Z.ltb_ge in E2.
  repeat (case_match; simpl; try done).
Qed.

(** A provider slower than the time left makes the call fail. *)
Lemma gemini_sendToAi_late ctx q now d :
  deadline ctx = Some d ->
  (forall c, d < now + latency (net c)) ->
  is_ok (value (Gemini.sendToAi net ctx q now)) = false.
Proof.
  intros Hd Hlate.
  unfold Gemini.sendToAi, Gemini.client_Do, Gemini.NewRequestWithContext,
    mbind, Task_bind, lift, roundTrip; simpl.
  destruct (Marshal_AiRequest _); simpl; [|done].
  destruct (url_parses _); simpl; [|done].
  unfold expired. rewrite Hd.
  destruct (d <=? now) eqn:E1; simpl; [done|].
  destruct (d <? now + latency _) eqn:E2; simpl; [done|].
  apply Z.ltb_ge in E2.
  match type of E2 with context [latency (net ?c)] => specialize (Hlate c) end.
  lia.
Qed.

(** One attempt: at most one outbound call per invocation. *)
Lemma gemini_sendToAi_one_call ctx q now :
  (length (trace (Gemini.sendToAi net ctx q now)) <= 1)%nat.
Proof.
  unfold Gemini.sendToAi, Gemini.client_Do, Gemini.NewRequestWithContext,
    mbind, Task_bind, lift, roundTrip, fail, mret, Task_ret; simpl.
  repeat (case_match; simpl; try lia).
Qed.
End GeminiClient.

(** ** The handler of the profile-backed variant *)

Section GeminiHandler.
Context `{Collaborators}.
Variable net : nat -> Call -> Reply HttpResponse.
Variable choose : nat -> nat.
Variable now : Z.

#[local] Abbreviation handler := (Gemini.processQuestionsWithAI net choose now).
#[local] Abbreviation sharedCtx := (WithTimeout Background now (30 * Second)).
#[local] Abbreviation fan profile :=
  (fanOut (Gemini.generatePromptWithBio profile)
          (fun i => Gemini.sendToAi (net i)) sharedCtx now choose).
#[local] Abbreviation outcomeOf profile :=
  (completion (Gemini.generatePromptWithBio profile)
              (fun i => Gemini.sendToAi (net i)) sharedCtx now).
#[local] Abbreviation endOf profile :=
  (endsAt (Gemini.generatePromptWithBio profile)
          (fun i => Gemini.sendToAi (net i)) sharedCtx now).

(** Past the guards, the handler is the fan-out followed by the encoder. *)
Lemma gemini_dispatch r profile questions :
  Gemini.reachesDispatch r profile questions ->
  handler r =
    mkServed (corsHeader ++ [("Content-Type", "application/json")]) StatusOK
             (JSON (slots (fan profile questions)))
             (issued (fan profile questions))
             (finished (fan profile questions)).
Proof.
  intros (Hm & uid & req & Hu & Hp & Hd & Hq & Hne).
  unfold Gemini.processQuestionsWithAI.
  apply String.eqb_neq in Hm. rewrite Hm, Hu, Hp, Hd, Hq.
  destruct questions; [done|]. reflexivity.
Qed.

(** What the response holds at a question's index. *)
Lemma gemini_slot r profile questions i q :
  Gemini.reachesDispatch r profile questions ->
  questions !! i = Some q ->
  exists response,
    Payload (handler r) = JSON response /\
    response !! i = Some match outcomeOf profile i q with
                         | Ok a => mkAnswer q a
                         | Err _ => zeroAnswer
                         end.
Proof.
  intros Hr Hq. rewrite (gemini_dispatch _ _ _ Hr). simpl.
  eexists. split; [reflexivity|]. by apply fanOut_slot.
Qed.

(** A goroutine whose call fails leaves its whole slot as it was made:
    neither question nor answer. *)
Lemma gemini_failed_slot r profile questions i q e :
  Gemini.reachesDispatch r profile questions ->
  questions !! i = Some q ->
  outcomeOf profile i q = Err e ->
  exists response,
    Payload (handler r) = JSON response /\
    response !! i = Some zeroAnswer.
Proof.
  intros Hr Hq He. destruct (gemini_slot _ _ _ _ _ Hr Hq) as (resp & Hp & Hi).
  rewrite He in Hi. eauto.
Qed.

(** The goroutines of one request all end by the shared deadline. *)
Lemma gemini_task_by_deadline profile i q :
  endOf profile i q <= now + 30 * Second.
Proof.
  unfold endsAt. apply gemini_sendToAi_by_deadline; [done|].
  unfold Second. lia.
Qed.

(** C2: for a request that passes identity resolution, profile lookup and
    body decoding and yields at least one question, the response is an array
    with as many elements as there are extracted questions. *)
Theorem response_length_eq_questions r profile questions :
  Gemini.reachesDispatch r profile questions ->
  exists response,
    Payload (handler r) = JSON response /\
    length response = length questions.
Proof.
  intros Hr. rewrite (gemini_dispatch _ _ _ Hr). simpl.
  eexists. split; [reflexivity|]. apply fanOut_length.
Qed.

(** C3: when the completion call fails for index [k] and succeeds for every
    other index, the response has the empty answer at [k] and, at every
    other index, exactly the text that index's own call returned. *)
Theorem single_failure_isolated r profile questions k qk e :
  Gemini.reachesDispatch r profile questions ->
  questions !! k = Some qk ->
  outcomeOf profile k qk = Err e ->
  (forall i q, i ≠ k -> questions !! i = Some q -> is_ok (outcomeOf profile i q)) ->
  exists response,
    Payload (handler r) = JSON response /\
    (exists slot, response !! k = Some slot /\ answer slot = "") /\
    (forall i q, i ≠ k -> questions !! i = Some q ->
       exists text, outcomeOf profile i q = Ok text /\
                    response !! i = Some (mkAnswer q text)).
Proof.
  intros Hr Hk Hfail Hothers.
  rewrite (gemini_dispatch _ _ _ Hr). simpl.
  eexists. split; [reflexivity|]. split.
  - exists zeroAnswer. split; [|done].
    rewrite (fanOut_slot _ _ _ _ _ _ _ _ Hk). by rewrite Hfail.
  - intros i q Hne Hq. specialize (Hothers i q Hne Hq).
    destruct (outcomeOf profile i q) as [text|] eqn:E; [|done].
    exists text. split; [done|].
    rewrite (fanOut_slot _ _ _ _ _ _ _ _ Hq). by rewrite E.
Qed.

(** C4: for a request that reaches dispatch, whatever the completion calls
    do and in whatever order the goroutines end, the handler answers 200
    with the whole result set; it returns when the last goroutine has
    ended, and that is no later than the shared deadline. *)
Theorem batch_never_fails r profile questions :
  Gemini.reachesDispatch r profile questions ->
  Status (handler r) = StatusOK /\
  (exists response, Payload (handler r) = JSON response /\
                    length response = length questions) /\
  (forall i q, questions !! i = Some q ->
     endOf profile i q <= ReturnedAt (handler r)) /\
  (exists i q, questions !! i = Some q /\
               ReturnedAt (handler r) = Z.max now (endOf profile i q)) /\
  ReturnedAt (handler r) <= now + 30 * Second.
Proof.
  intros Hr. rewrite (gemini_dispatch _ _ _ Hr). simpl.
  split; [done|]. split; [|split; [|split]].
  - eexists. split; [reflexivity|]. apply fanOut_length.
  - intros i q Hq. by apply fanOut_finished_ge.
  - pose proof (fanOut_finished_ge (Gemini.generatePromptWithBio profile)
                  (fun i => Gemini.sendToAi (net i)) sharedCtx now choose
                  questions) as Hge.
    destruct (fanOut_finished_attained (Gemini.generatePromptWithBio profile)
                (fun i => Gemini.sendToAi (net i)) sharedCtx now choose
                questions) as [Hs | (i & q & Hq & Hi)].
    + destruct Hr as (_ & _ & _ & _ & _ & _ & _ & Hne).
      destruct questions as [|q0 qs]; [done|].
      exists 0%nat, q0. split; [done|].
      specialize (Hge 0%nat q0 eq_refl). lia.
    + exists i, q. split; [done|].
      pose proof (runAll_finished_ge (Gemini.generatePromptWithBio profile)
                    (fun i => Gemini.sendToAi (net i)) sharedCtx now
                    (interleave (length questions) choose (spawned questions))
                    (mkFanOut (replicate (length questions) zeroAnswer) [] now []))
        as [Hstart _].
      unfold fanOut in *. simpl in *. lia.
  - apply fanOut_finished_le; [unfold Second; lia|].
    intros i q _. apply gemini_task_by_deadline.
Qed.

(** C5: a request that gets as far as extraction and yields no question is
    answered 400 and no call to the completion client is made. *)
Theorem no_questions_no_calls r userID profile req :
  Method r ≠ MethodOptions ->
  getValueFromToken r "sub" = Ok userID ->
  Gemini.getUserProfile userID = (profile, None) ->
  Decode_HtmlRequest (Body r) = Ok req ->
  extractQuestions (cleanHTMLContent (Html req)) = [] ->
  Status (handler r) = StatusBadRequest /\
  Payload (handler r) = ErrorText "No questions found" /\
  Calls (handler r) = [].
Proof.
  intros Hm Hu Hp Hd Hq. unfold Gemini.processQuestionsWithAI.
  apply String.eqb_neq in Hm. rewrite Hm, Hu, Hp, Hd, Hq. done.
Qed.

(** Without a resolved identity the handler stops at 401; the response is
    made of the resolver's error alone. *)
Lemma gemini_unauthorized r e :
  Method r ≠ MethodOptions ->
  getValueFromToken r "sub" = Err e ->
  handler r =
    http_Error corsHeader
      ("トークンからユーザーIDの取得に失敗しました: " +:+ e)
      StatusUnauthorized now.
Proof.
  intros Hm Hu. unfold Gemini.processQuestionsWithAI.
  apply String.eqb_neq in Hm. by rewrite Hm, Hu.
Qed.

(** Without a profile the handler stops at 500; whatever was scanned before
    the error is dropped. *)
Lemma gemini_profile_error r userID partial e :
  Method r ≠ MethodOptions ->
  getValueFromToken r "sub" = Ok userID ->
  Gemini.getUserProfile userID = (partial, Some e) ->
  handler r =
    http_Error corsHeader
      ("ユーザープロフィールの取得に失敗しました: " +:+ e)
      StatusInternalServerError now.
Proof.
  intros Hm Hu Hp. unfold Gemini.processQuestionsWithAI.
  apply String.eqb_neq in Hm. by rewrite Hm, Hu, Hp.
Qed.

(** C10: identity resolution comes before profile lookup, and profile
    lookup before body decoding: an unresolved identity is answered 401
    whatever else is wrong, a failed profile lookup 500 even when the body
    is malformed, and 400 is only answered once both have succeeded; then a
    malformed body is answered 400. *)
Theorem guard_precedence r :
  Method r ≠ MethodOptions ->
  (forall e, getValueFromToken r "sub" = Err e ->
     Status (handler r) = StatusUnauthorized) /\
  (forall userID partial e e',
     getValueFromToken r "sub" = Ok userID ->
     Gemini.getUserProfile userID = (partial, Some e) ->
     Decode_HtmlRequest (Body r) = Err e' ->
     Status (handler r) = StatusInternalServerError) /\
  (Status (handler r) = StatusBadRequest ->
     exists userID profile,
       getValueFromToken r "sub" = Ok userID /\
       Gemini.getUserProfile userID = (profile, None)) /\
  (forall userID profile e',
     getValueFromToken r "sub" = Ok userID ->
     Gemini.getUserProfile userID = (profile, None) ->
     Decode_HtmlRequest (Body r) = Err e' ->
     Status (handler r) = StatusBadRequest /\
     Payload (handler r) = ErrorText "Bad request").
Proof.
  intros Hm. split; [|split; [|split]].
  - intros e Hu. by rewrite (gemini_unauthorized _ _ Hm Hu).
  - intros userID partial e e' Hu Hp _.
    by rewrite (gemini_profile_error _ _ _ _ Hm Hu Hp).
  - unfold Gemini.processQuestionsWithAI.
    apply String.eqb_neq in Hm. rewrite Hm.
    destruct (getValueFromToken r "sub") as [userID|e]; [|done].
    destruct (Gemini.getUserProfile userID) as [profile [e|]] eqn:Hp; [done|].
    intros _. by exists userID, profile.
  - intros userID profile e' Hu Hp Hd. unfold Gemini.processQuestionsWithAI.
    apply String.eqb_neq in Hm. by rewrite Hm, Hu, Hp, Hd.
Qed.

(** When every provider is slower than the shared timeout, every answer of
    the profile-backed variant is empty, and the handler has returned by the
    deadline. *)
Lemma gemini_all_late r profile questions :
  Gemini.reachesDispatch r profile questions ->
  (forall i c, 30 * Second < latency (net i c)) ->
  ReturnedAt (handler r) <= now + 30 * Second /\
  exists response,
    Payload (handler r) = JSON response /\
    length response = length questions /\
    forall slot, slot ∈ response -> slot = zeroAnswer.
Proof.
  intros Hr Hlate. rewrite (gemini_dispatch _ _ _ Hr). simpl. split.
  - apply fanOut_finished_le; [unfold Second; lia|].
    intros i q _. apply gemini_task_by_deadline.
  - eexists. split; [reflexivity|]. split; [apply fanOut_length|].
    intros slot Hin. apply list_elem_of_lookup in Hin as [i Hi].
    assert (i < length questions)%nat as Hlt.
    { apply lookup_lt_Some in Hi. by rewrite fanOut_length in Hi. }
    destruct (lookup_lt_is_Some_2 questions i Hlt) as [q Hq].
    rewrite (fanOut_slot _ _ _ _ _ _ _ _ Hq) in Hi.
    injection Hi as <-.
    assert (is_ok (outcomeOf profile i q) = false) as Hf.
    { apply (gemini_sendToAi_late (net i) sharedCtx _ now _ eq_refl).
      intros c. specialize (Hlate i c). lia. }
    by destruct (outcomeOf profile i q).
Qed.
End GeminiHandler.

(** ** Who writes which slot *)

Section SlotOwnership.
Variable compose : string -> string.
Variable send : nat -> context -> string -> Task string.
Variable ctx : context.
Variable startTime : Z.

#[local] Abbreviation fan := (fanOut compose send ctx startTime).
#[local] Abbreviation outcomeOf := (completion compose send ctx startTime).

(** C9: distinct goroutines are handed distinct slot indices; no slot is
    assigned more than once, and only by the goroutine that owns it and
    only when its call succeeded; in the end a slot holds either its
    question with the completion text, or the zero value it was created
    with. *)
Theorem slot_ownership choose questions :
  (forall a b i j q q',
     spawned questions !! a = Some (i, q) ->
     spawned questions !! b = Some (j, q') ->
     a ≠ b -> i ≠ j) /\
  NoDup (writes (fan choose questions)) /\
  (forall i, i ∈ writes (fan choose questions) ->
     exists q text, questions !! i = Some q /\ outcomeOf i q = Ok text) /\
  (forall i q, questions !! i = Some q ->
     slots (fan choose questions) !! i = Some zeroAnswer \/
     exists text, outcomeOf i q = Ok text /\
                  slots (fan choose questions) !! i = Some (mkAnswer q text)).
Proof.
  split; [|split; [|split]].
  - intros a b i j q q' Ha Hb Hab.
    rewrite spawned_lookup in Ha, Hb.
    destruct (questions !! a), (questions !! b); simplify_eq/=. done.
  - apply fanOut_writes_NoDup.
  - intros i Hi. by apply fanOut_writes_owner in Hi.
  - intros i q Hq. rewrite (fanOut_slot _ _ _ _ _ _ _ _ Hq).
    destruct (outcomeOf i q) as [text|] eqn:E; [right | left; done].
    by exists text.
Qed.
End SlotOwnership.

(** ** The fixed-bio variant *)

Section BedrockHandler.
Context `{Collaborators}.
Variable net : nat -> Call -> Reply InvokeModelOutput.
Variable choose : nat -> nat.
Variable now : Z.

#[local] Abbreviation handler := (Bedrock.processQuestionsWithAI net choose now).
#[local] Abbreviation sharedCtx := (WithTimeout Background now (30 * Second)).
#[local] Abbreviation fan :=
  (fanOut (Bedrock.generatePromptWithBio Bedrock.bio)
          (fun i => Bedrock.sendToAi (net i)) sharedCtx now choose).

Lemma bedrock_dispatch r questions :
  Bedrock.reachesDispatch r questions ->
  handler r =
    mkServed (corsHeader ++ [("Content-Type", "application/json")]) StatusOK
             (JSON (slots (fan questions)))
             (issued (fan questions))
             (finished (fan questions)).
Proof.
  intros (Hm & req & Hd & Hq & Hne).
  unfold Bedrock.processQuestionsWithAI.
  apply String.eqb_neq in Hm. rewrite Hm, Hd, Hq.
  destruct questions; [done|]. reflexivity.
Qed.

(** This variant knows two answers only. *)
Lemma bedrock_status r :
  Status (handler r) = StatusOK \/ Status (handler r) = StatusBadRequest.
Proof.
  unfold Bedrock.processQuestionsWithAI.
  repeat (case_match; simpl; auto).
Qed.

Lemma bedrock_no_questions r req :
  Method r ≠ MethodOptions ->
  Decode_HtmlRequest (Body r) = Ok req ->
  extractQuestions (cleanHTMLContent (Html req)) = [] ->
  Status (handler r) = StatusBadRequest /\ Calls (handler r) = [].
Proof.
  intros Hm Hd Hq. unfold Bedrock.processQuestionsWithAI.
  apply String.eqb_neq in Hm. rewrite Hm, Hd, Hq. done.
Qed.

(** The context handed to [sendToAi] reaches the configuration loader and
    nothing else: the model is invoked under [context.TODO()]. *)
Lemma bedrock_sendToAi_ignores_ctx (one : Call -> Reply InvokeModelOutput)
  ctx ctx' q t :
  (forall region key secret token,
     LoadDefaultConfig ctx region key secret token =
     LoadDefaultConfig ctx' region key secret token) ->
  Bedrock.sendToAi one ctx q t = Bedrock.sendToAi one ctx' q t.
Proof.
  intros Hcfg. unfold Bedrock.sendToAi. by rewrite Hcfg.
Qed.
End BedrockHandler.

(** ** Identity and profile *)

Section Identity.
Context `{Collaborators}.

(** C8, as amended: in the profile-backed handler, for every request that
    is not a preflight, an unresolved identity is answered 401 and a failed
    profile lookup 500; in both cases the response is the error alone, no
    call has been made and nothing of the body has been used.  The fixed-bio
    variant resolves no identity and looks up no profile: it answers 200 or
    400 only. *)
Theorem identity_then_profile
  (net : nat -> Call -> Reply HttpResponse)
  (net' : nat -> Call -> Reply InvokeModelOutput)
  (choose : nat -> nat) (now : Z) (r : Request) :
  Method r ≠ MethodOptions ->
  (forall e, getValueFromToken r "sub" = Err e ->
     Gemini.processQuestionsWithAI net choose now r =
       http_Error corsHeader
         ("トークンからユーザーIDの取得に失敗しました: " +:+ e)
         StatusUnauthorized now) /\
  (forall userID partial e,
     getValueFromToken r "sub" = Ok userID ->
     Gemini.getUserProfile userID = (partial, Some e) ->
     Gemini.processQuestionsWithAI net choose now r =
       http_Error corsHeader
         ("ユーザープロフィールの取得に失敗しました: " +:+ e)
         StatusInternalServerError now) /\
  (Status (Bedrock.processQuestionsWithAI net' choose now r) = StatusOK \/
   Status (Bedrock.processQuestionsWithAI net' choose now r) = StatusBadRequest).
Proof.
  intros Hm. split; [|split].
  - intros e Hu. by apply gemini_unauthorized.
  - intros userID partial e Hu Hp. by eapply gemini_profile_error.
  - apply bedrock_status.
Qed.
End Identity.

(** ** Scenarios *)

#[local] Existing Instance Stub.collaborators.

Example stub_three_answers :
  Payload (Gemini.processQuestionsWithAI (fun _ => Stub.answering Second "OK")
             Stub.shuffled 0 (Stub.goodRequest "<form three>"))
  = JSON [mkAnswer "Name?" "OK"; mkAnswer "Why this company?" "OK";
          mkAnswer "Strengths?" "OK"].
Proof. vm_compute. reflexivity. Qed.

(** The stub request for the three-question form passes every guard. *)
Lemma three_reach_dispatch :
  Gemini.reachesDispatch (Stub.goodRequest "<form three>") Stub.profile
                         Stub.threeQuestions.
Proof.
  split; [done|]. exists "user-1", (mkHtmlRequest "<form three>").
  repeat split; done.
Defined.

(** C1: with the provider down for the second of three questions, the
    second element of the response has lost its question: the goroutine
    returns on the error before it assigns its slot, which keeps the zero
    value. *)
Theorem failed_slot_loses_question :
  Payload (Gemini.processQuestionsWithAI Stub.secondDown Stub.inOrder 0
             (Stub.goodRequest "<form three>"))
  = JSON [mkAnswer "Name?" "OK"; mkAnswer "" ""; mkAnswer "Strengths?" "OK"].
Proof. vm_compute. reflexivity. Qed.

Lemma response_length_witness :
  Gemini.reachesDispatch (Stub.goodRequest "<form three>") Stub.profile
                         Stub.threeQuestions /\
  exists response,
    Payload (Gemini.processQuestionsWithAI Stub.secondDown Stub.shuffled 0
               (Stub.goodRequest "<form three>")) = JSON response /\
    length response = 3%nat.
Proof.
  split; [exact three_reach_dispatch|].
  exact (response_length_eq_questions Stub.secondDown Stub.shuffled 0
           _ _ _ three_reach_dispatch).
Defined.

Lemma single_failure_witness :
  exists response,
    Payload (Gemini.processQuestionsWithAI Stub.secondDown Stub.shuffled 0
               (Stub.goodRequest "<form three>")) = JSON response /\
    (exists slot, response !! 1%nat = Some slot /\ answer slot = "") /\
    (forall i q, i ≠ 1%nat -> Stub.threeQuestions !! i = Some q ->
       exists text,
         completion (Gemini.generatePromptWithBio Stub.profile)
                    (fun i => Gemini.sendToAi (Stub.secondDown i))
                    (WithTimeout Background 0 (30 * Second)) 0 i q = Ok text /\
         response !! i = Some (mkAnswer q text)).
Proof.
  apply (single_failure_isolated Stub.secondDown Stub.shuffled 0
           (Stub.goodRequest "<form three>") Stub.profile Stub.threeQuestions
           1%nat "Why this company?" "dial tcp: connection refused").
  - exact three_reach_dispatch.
  - reflexivity.
  - vm_compute. reflexivity.
  - intros [|[|[|i]]] q Hne Hq; [| done | | done];
      injection Hq as <-; vm_compute; exact I.
Defined.

Lemma batch_never_fails_witness :
  Status (Gemini.processQuestionsWithAI Stub.secondDown Stub.shuffled 0
            (Stub.goodRequest "<form three>")) = StatusOK.
Proof.
  exact (proj1 (batch_never_fails Stub.secondDown Stub.shuffled 0
                  _ _ _ three_reach_dispatch)).
Defined.

Lemma no_questions_witness :
  Status (Gemini.processQuestionsWithAI Stub.secondDown Stub.inOrder 0
            (Stub.goodRequest "<p>no form</p>")) = StatusBadRequest /\
  Payload (Gemini.processQuestionsWithAI Stub.secondDown Stub.inOrder 0
             (Stub.goodRequest "<p>no form</p>")) = ErrorText "No questions found" /\
  Calls (Gemini.processQuestionsWithAI Stub.secondDown Stub.inOrder 0
           (Stub.goodRequest "<p>no form</p>")) = [].
Proof.
  apply (no_questions_no_calls Stub.secondDown Stub.inOrder 0
           (Stub.goodRequest "<p>no form</p>") "user-1" Stub.profile
           (mkHtmlRequest "<p>no form</p>")); [done | reflexivity ..].
Defined.

(** C6: the fixed-bio variant's client, called with a context whose deadline
    has already passed, still issues its call and returns the completion:
    the model is invoked under [context.TODO()], not under the context the
    client was given. *)
Theorem bedrock_calls_on_expired_context :
  expired (mkContext (Some 0)) 5 = true /\
  value (Bedrock.sendToAi (Stub.completing Second "OK")
           (mkContext (Some 0)) "Name?" 5) = Ok "OK" /\
  length (trace (Bedrock.sendToAi (Stub.completing Second "OK")
                   (mkContext (Some 0)) "Name?" 5)) = 1%nat /\
  clock (Bedrock.sendToAi (Stub.completing Second "OK")
           (mkContext (Some 0)) "Name?" 5) = 5 + Second.
Proof. vm_compute. repeat split; reflexivity. Qed.

(** The profile-backed client on the same input sends nothing. *)
Example gemini_silent_on_expired_context :
  value (Gemini.sendToAi (Stub.answering Second "OK")
           (mkContext (Some 0)) "Name?" 5) = Err "context deadline exceeded" /\
  trace (Gemini.sendToAi (Stub.answering Second "OK")
           (mkContext (Some 0)) "Name?" 5) = [].
Proof. vm_compute. split; reflexivity. Qed.

(** C7: with a provider that takes forty seconds, the fixed-bio variant
    returns after forty seconds, ten past the shared deadline, and with the
    answer filled in: nothing cuts the call off, and [wg.Wait()] waits for
    it. *)
Theorem bedrock_waits_past_deadline :
  ReturnedAt (Bedrock.processQuestionsWithAI
                (fun _ => Stub.completing (40 * Second) "late")
                Stub.inOrder 0 (Stub.anonymousRequest "<form one>"))
    = 40 * Second /\
  Payload (Bedrock.processQuestionsWithAI
             (fun _ => Stub.completing (40 * Second) "late")
             Stub.inOrder 0 (Stub.anonymousRequest "<form one>"))
    = JSON [mkAnswer "Name?" "late"].
Proof. vm_compute. split; reflexivity. Qed.

(** The profile-backed variant on the same provider gives up at thirty. *)
Example gemini_gives_up_at_deadline :
  ReturnedAt (Gemini.processQuestionsWithAI
                (fun _ => Stub.answering (40 * Second) "late")
                Stub.inOrder 0 (Stub.goodRequest "<form one>"))
    = 30 * Second /\
  Payload (Gemini.processQuestionsWithAI
             (fun _ => Stub.answering (40 * Second) "late")
             Stub.inOrder 0 (Stub.goodRequest "<form one>"))
    = JSON [zeroAnswer].
Proof. vm_compute. split; reflexivity. Qed.

(** The fixed-bio variant serves a caller whose identity does not resolve:
    200, and the question has gone out to the provider. *)
Lemma unresolved_identity_served :
  ~ (getValueFromToken (Stub.anonymousRequest "<form one>") "sub"
       = Err "token is malformed" ->
     Status (Bedrock.processQuestionsWithAI
               (fun _ => Stub.completing Second "OK") Stub.inOrder 0
               (Stub.anonymousRequest "<form one>")) = StatusUnauthorized /\
     Calls (Bedrock.processQuestionsWithAI
              (fun _ => Stub.completing Second "OK") Stub.inOrder 0
              (Stub.anonymousRequest "<form one>")) = []).
Proof.
  intros Hclaim. destruct (Hclaim eq_refl) as [Hstatus _].
  vm_compute in Hstatus. discriminate Hstatus.
Qed.

Lemma identity_then_profile_witness :
  Status (Gemini.processQuestionsWithAI Stub.secondDown Stub.inOrder 0
            (Stub.anonymousRequest "<form one>")) = StatusUnauthorized /\
  Status (Gemini.processQuestionsWithAI Stub.secondDown Stub.inOrder 0
            (mkRequest "POST" "Bearer stranger" "html=<form one>"))
    = StatusInternalServerError.
Proof.
  split.
  - rewrite (proj1 (identity_then_profile Stub.secondDown
                      (fun _ => Stub.completing Second "OK") Stub.inOrder 0
                      (Stub.anonymousRequest "<form one>") ltac:(done))
               "token is malformed" eq_refl).
    reflexivity.
  - rewrite (proj1 (proj2 (identity_then_profile Stub.secondDown
                      (fun _ => Stub.completing Second "OK") Stub.inOrder 0
                      (mkRequest "POST" "Bearer stranger" "html=<form one>")
                      ltac:(done)))
               "user-2" Stub.noProfile
               "プロフィールの取得に失敗しました: sql: no rows in result set"
               eq_refl eq_refl).
    reflexivity.
Defined.

Lemma guard_precedence_witness :
  Status (Gemini.processQuestionsWithAI Stub.secondDown Stub.inOrder 0
            (mkRequest "POST" "Bearer stranger" "not json"))
    = StatusInternalServerError.
Proof.
  apply (proj1 (proj2 (guard_precedence Stub.secondDown Stub.inOrder 0
                         (mkRequest "POST" "Bearer stranger" "not json")
                         ltac:(done)))
           "user-2" Stub.noProfile
           "プロフィールの取得に失敗しました: sql: no rows in result set"
           "invalid character looking for beginning of value");
    reflexivity.
Defined.

Lemma slot_ownership_witness :
  NoDup (writes (fanOut (Gemini.generatePromptWithBio Stub.profile)
                        (fun i => Gemini.sendToAi (Stub.secondDown i))
                        (WithTimeout Background 0 (30 * Second)) 0
                        Stub.shuffled Stub.threeQuestions)).
Proof.
  exact (proj1 (proj2 (slot_ownership
                         (Gemini.generatePromptWithBio Stub.profile)
                         (fun i => Gemini.sendToAi (Stub.secondDown i))
                         (WithTimeout Background 0 (30 * Second)) 0
                         Stub.shuffled Stub.threeQuestions))).
Defined.

(** In that run goroutine 2 assigned first, then goroutine 0; goroutine 1
    assigned nothing. *)
Example shuffled_writes :
  writes (fanOut (Gemini.generatePromptWithBio Stub.profile)
                 (fun i => Gemini.sendToAi (Stub.secondDown i))
                 (WithTimeout Background 0 (30 * Second)) 0
                 Stub.shuffled Stub.threeQuestions) = [2%nat; 0%nat].
Proof. vm_compute. reflexivity. Qed.
